(** * Creational patterns: the Singleton instance registry and the
      Factory Method currency lookups

    A shallow embedding of
    - [creational_patterns/singleton/naiveSingleton.py]
      (metaclass [Singleton], class [NetworkDriver], [create_singleton]
      and the script body), and
    - [creational_patterns/factory_method/src/factory_method.py]
      ([FiatCurrencyFactory.create_country] and
      [VirtualCurrencyFactory.create_country]),
    followed by the properties the specification states about them.

    Python code that reads and writes process state and may raise is
    embedded in a state-and-exception monad [Py]; the class-level
    dictionary [Singleton._instance] is a [gmap] keyed by the class. *)

From stdpp Require Import gmap strings list fin_maps pretty.
From Stdlib Require Import ZArith Lia.

Open Scope string_scope.
Open Scope list_scope.

(** ** Python values, exceptions and the [Py] monad *)

(** The values that can be passed as construction arguments. *)
Inductive pyval : Type :=
  | VNone
  | VBool (b : bool)
  | VInt (n : Z)
  | VStr (s : string).

(** The positional and keyword arguments of a call. *)
Record args : Type := Args {
  positional : list pyval;
  keywords : list (string * pyval)
}.

Definition no_args : args := Args [] [].

(** Exceptions, by class. *)
Inductive exn : Type :=
  | TypeError (msg : string)
  | KeyError (key : string)
  | ValueError (msg : string)
  | RuntimeError (msg : string).

(** What a call does: hand back a value or raise. *)
Inductive outcome (A : Type) : Type :=
  | Return (a : A)
  | Raise (e : exn).
Arguments Return {A} a.
Arguments Raise {A} e.

(** A computation over process state [S]: state changes made before an
    exception is raised stay made, as in Python. *)
Definition Py (S A : Type) : Type := S -> outcome A * S.

Definition ret {S A} (a : A) : Py S A := fun s => (Return a, s).

Definition raise {S A} (e : exn) : Py S A := fun s => (Raise e, s).

Definition bind {S A B} (m : Py S A) (k : A -> Py S B) : Py S B :=
  fun s =>
    match m s with
    | (Return a, s') => k a s'
    | (Raise e, s') => (Raise e, s')
    end.

Definition gets {S A} (f : S -> A) : Py S A := fun s => (Return (f s), s).

Definition modify {S} (f : S -> S) : Py S unit := fun s => (Return tt, f s).

Declare Scope py_scope.
Delimit Scope py_scope with py.
Notation "x <- m ;; k" := (bind m (fun x => k))
  (at level 100, m at next level, right associativity) : py_scope.
Notation "m ;; k" := (bind m (fun _ => k))
  (at level 100, right associativity) : py_scope.

(** ** factory_method.py *)

Module factory_method.

Section Factories.
(** Whatever the process state is, and whatever the receiver [self]
    holds: the methods are embedded in [Py] over an arbitrary state and
    take the receiver as an argument, as the source does. *)
Context {S : Type} {factory : Type}.

(** [FiatCurrencyFactory.create_country(self, country)] *)
Definition Fiat_create_country (self : factory) (country : string)
  : Py S string :=
  if String.eqb country "USA" then ret "USD"
  else if String.eqb country "Spain" then ret "EUR"
  else if String.eqb country "Japan" then ret "JPY"
  else ret "Unknown Country".

(** [VirtualCurrencyFactory.create_country(self, country)] *)
Definition Virtual_create_country (self : factory) (country : string)
  : Py S string :=
  if String.eqb country "USA" then ret "Bitcoin"
  else if String.eqb country "Spain" then ret "Ethereum"
  else if String.eqb country "Japan" then ret "Dogecoin"
  else ret "Unknown Country".

(** A request to one of the two factories. *)
Inductive request : Type :=
  | AskFiat (self : factory) (country : string)
  | AskVirtual (self : factory) (country : string).

Definition serve (q : request) : Py S string :=
  match q with
  | AskFiat self c => Fiat_create_country self c
  | AskVirtual self c => Virtual_create_country self c
  end.

(** Requests served one after the other, in the given order. *)
Fixpoint serve_all (qs : list request) : Py S (list string) :=
  match qs with
  | [] => ret []
  | q :: qs' =>
      (v <- serve q ;; vs <- serve_all qs' ;; ret (v :: vs))%py
  end.
End Factories.

End factory_method.

(** ** naiveSingleton.py *)

Module naiveSingleton.

(** A class is named by its identifier; the class object is the dictionary
    key, and two class objects are the same key exactly when they are the
    same class. *)
Definition class_id : Type := string.

(** A reference is the position of the object in the heap: what [id()]
    reports and what [is] compares. *)
Definition ref : Type := nat.

Definition attrs : Type := list (string * pyval).

Record object : Type := Object {
  ob_class : class_id;
  ob_dict : attrs
}.

(** What a class contributes to [type.__call__]: the work done between the
    request and the finished instance. [__new__] is [object.__new__] for
    every class of the repository, so this is argument checking followed
    by [__init__]: it may print, and it either raises or leaves the
    attributes of the new instance. It has no access to the registry. *)
Record class_def : Type := ClassDef {
  cd_init : args -> Py (list string) attrs
}.

(** A class that defines neither [__new__] nor [__init__]: called with
    arguments, [object.__new__] raises [TypeError]. *)
Definition object_init (name : class_id) (a : args) : Py (list string) attrs :=
  match positional a, keywords a with
  | [], [] => ret []
  | _, _ => raise (TypeError (name +:+ "() takes no arguments"))
  end.

(** Process state. [_instance] is the class attribute [Singleton._instance];
    [constructed] is instrumentation: one entry per run of the underlying
    constructor, in order. *)
Record state : Type := State {
  _instance : gmap class_id ref;
  heap : list object;
  stdout : list string;
  constructed : list (class_id * args)
}.

(** Process start: [_instance = {}]. *)
Definition initial : state := State ∅ [] [] [].

Definition set_instance (K : class_id) (r : ref) (s : state) : state :=
  State (<[K:=r]> (_instance s)) (heap s) (stdout s) (constructed s).

Definition set_stdout (out : list string) (s : state) : state :=
  State (_instance s) (heap s) out (constructed s).

Definition note_construction (K : class_id) (a : args) (s : state) : state :=
  State (_instance s) (heap s) (stdout s) (constructed s ++ [(K, a)]).

(** A new object goes to the end of the heap; its reference is fresh. *)
Definition alloc (o : object) : Py state ref :=
  fun s =>
    (Return (length (heap s)),
     State (_instance s) (heap s ++ [o]) (stdout s) (constructed s)).

(** Run a computation over the output stream inside the process. *)
Definition on_stdout {A} (m : Py (list string) A) : Py state A :=
  fun s => let '(r, out) := m (stdout s) in (r, set_stdout out s).

Definition print (line : string) : Py state unit :=
  modify (fun s => set_stdout (stdout s ++ [line]) s).

Section Singleton.
(** The classes declared with [metaclass=Singleton]. *)
Variable classes : class_id -> class_def.

(** The [super(Singleton, self).__call__] of the source, that is
    [type.__call__] on the arguments of the request: the underlying
    constructor. *)
Definition type__call__ (self : class_id) (a : args) : Py state ref :=
  (modify (note_construction self a) ;;
   d <- on_stdout (cd_init (classes self) a) ;;
   alloc (Object self d))%py.

(** The header [def __call__(self, ...)] with its two starred parameters:
    [self] can be passed by keyword, and it is already bound to the class
    being called, so a call with a keyword argument named [self] raises
    [TypeError] when the parameters are bound, before the body runs. *)
Definition names_self (a : args) : bool :=
  existsb (fun kv => String.eqb (fst kv) "self") (keywords a).

Definition self_bound_twice : exn :=
  TypeError "Singleton.__call__() got multiple values for argument 'self'".

(** [Singleton.__call__], with [a] for its starred parameters: the
    binding of the parameters, then the body
<<
    if self not in self._instance:
        self._instance[self] = type__call__ self a
    return self._instance[self]
>>
    The subscript in the [return] raises [KeyError] on a missing key. *)
Definition __call__ (self : class_id) (a : args) : Py state ref :=
  if names_self a then raise self_bound_twice
  else
  (absent <- gets (fun s => bool_decide (_instance s !! self = None)) ;;
   (if absent : bool
    then r <- type__call__ self a ;; modify (set_instance self r)
    else ret tt) ;;
   found <- gets (fun s => _instance s !! self) ;;
   match found with
   | Some r => ret r
   | None => raise (KeyError self)
   end)%py.

(** A process as far as the registry sees it: construction requests, one
    after the other; a request that raises is over, and the process goes
    on with the next one. *)
Definition request : Type := (class_id * args)%type.

Fixpoint exec (reqs : list request) (s : state)
  : list (outcome ref) * state :=
  match reqs with
  | [] => ([], s)
  | (K, a) :: reqs' =>
      let '(r, s1) := __call__ K a s in
      let '(rs, s2) := exec reqs' s1 in
      (r :: rs, s2)
  end.

Definition results (reqs : list request) : list (outcome ref) :=
  fst (exec reqs initial).

Definition final (reqs : list request) : state :=
  snd (exec reqs initial).

(** The state in which request number [i] is served. *)
Definition before (i : nat) (reqs : list request) : state :=
  final (take i reqs).

(** The four ways a request can go, in terms of the state alone. *)
Inductive served (K : class_id) (a : args) (s : state)
  : outcome ref -> state -> Prop :=
  | served_unbound :
      names_self a = true ->
      served K a s (Raise self_bound_twice) s
  | served_cached r :
      names_self a = false ->
      _instance s !! K = Some r ->
      served K a s (Return r) s
  | served_built d out :
      names_self a = false ->
      _instance s !! K = None ->
      cd_init (classes K) a (stdout s) = (Return d, out) ->
      served K a s (Return (length (heap s)))
        (State (<[K:=length (heap s)]> (_instance s))
               (heap s ++ [Object K d]) out (constructed s ++ [(K, a)]))
  | served_raised e out :
      names_self a = false ->
      _instance s !! K = None ->
      cd_init (classes K) a (stdout s) = (Raise e, out) ->
      served K a s (Raise e)
        (State (_instance s) (heap s) out (constructed s ++ [(K, a)])).
End Singleton.

(** How often the underlying constructor of [K] has run. *)
Definition invocations (K : class_id) (s : state) : nat :=
  length (filter (fun c => fst c = K) (constructed s)).

(** The requests for [K] that get past the binding of the parameters, up
    to and including the first one that returns, read off the requests
    and their outcomes. *)
Fixpoint attempts (K : class_id) (reqs : list request)
    (rs : list (outcome ref)) : nat :=
  match reqs, rs with
  | (K', a) :: reqs', r :: rs' =>
      if decide (K' = K)
      then if names_self a then attempts K reqs' rs'
           else match r with
                | Return _ => 1
                | Raise _ => S (attempts K reqs' rs')
                end
      else attempts K reqs' rs'
  | _, _ => 0
  end.

(** The instances of [K] there are. *)
Definition instances (K : class_id) (s : state) : list object :=
  filter (fun o => ob_class o = K) (heap s).

(** Every entry of the registry points at a finished instance of the class
    it is filed under, with the attributes that class gave it on one of
    its noted constructions. *)
Definition consistent (classes : class_id -> class_def) (s : state) : Prop :=
  forall (K : class_id) (r : ref), _instance s !! K = Some r ->
    exists (d : attrs) (a : args) (out out' : list string),
      heap s !! r = Some (Object K d) /\
      (K, a) ∈ constructed s /\
      cd_init (classes K) a out = (Return d, out').

(** A class has one instance if it is registered and none otherwise. *)
Definition counted (s : state) : Prop :=
  forall K,
    length (instances K s) =
      match _instance s !! K with Some _ => 1 | None => 0 end.

(** "The constructor runs on the first call only", read literally: a
    request for a class that was requested before never runs the
    constructor. *)
Definition first_call_only (classes : class_id -> class_def) : Prop :=
  forall (reqs : list request) (K : class_id) (i j : nat) (a a' : args),
    i < j ->
    reqs !! i = Some (K, a) ->
    reqs !! j = Some (K, a') ->
    constructed (before classes (S j) reqs) =
    constructed (before classes j reqs).

(** [class NetworkDriver(metaclass=Singleton)] has a [log] method and
    nothing else. *)
Definition program_classes (K : class_id) : class_def :=
  ClassDef (object_init K).

Definition newline : string := String (Ascii.ascii_of_nat 10) EmptyString.

(** [NetworkDriver.log(self)] *)
Definition NetworkDriver_log (self : ref) : Py state unit :=
  print ("NetworkDriver instance id: " +:+ pretty self +:+ newline).

(** [create_singleton()] *)
Definition create_singleton : Py state ref :=
  (singleton <- __call__ program_classes "NetworkDriver" no_args ;;
   NetworkDriver_log singleton ;;
   ret singleton)%py.

(** The script body under [if __name__ == "__main__"]. *)
Definition main : Py state unit :=
  (driver1 <- create_singleton ;;
   driver2 <- create_singleton ;;
   driver3 <- create_singleton ;;
   if bool_decide (driver1 = driver2) && bool_decide (driver2 = driver3)
   then print "All instances are the same. Singleton pattern works!"
   else print "Instances are different. Singleton pattern failed.")%py.

(** The line [NetworkDriver.log] prints for the instance at [self]. *)
Definition log_line (self : ref) : string :=
  "NetworkDriver instance id: " +:+ pretty self +:+ newline.

(** How many of the requests are by [K]. *)
Definition requests_for (K : class_id) (reqs : list request) : nat :=
  length (filter (fun q => fst q = K) reqs).

End naiveSingleton.

(** * Properties *)

Import naiveSingleton.

(** ** One request *)

Section OneRequest.
Variable classes : class_id -> class_def.

(** The underlying constructor, step by step: it is noted, the class
    does its work on the output stream, and only a finished instance is
    put on the heap. *)
Lemma type_call_unfold (K : class_id) (a : args) (s : state) :
  type__call__ classes K a s =
    match cd_init (classes K) a (stdout s) with
    | (Return d, out) =>
        (Return (length (heap s)),
         State (_instance s) (heap s ++ [Object K d]) out
               (constructed s ++ [(K, a)]))
    | (Raise e, out) =>
        (Raise e,
         State (_instance s) (heap s) out (constructed s ++ [(K, a)]))
    end.
Proof.
  unfold type__call__, bind, modify, on_stdout, alloc, note_construction.
  simpl. destruct (cd_init (classes K) a (stdout s)) as [[d|e] out]; reflexivity.
Qed.

Lemma call_unbound (K : class_id) (a : args) (s : state) :
  names_self a = true -> __call__ classes K a s = (Raise self_bound_twice, s).
Proof. intros Hself. unfold __call__. by rewrite Hself. Qed.

Lemma call_present (K : class_id) (a : args) (s : state) (r : ref) :
  names_self a = false ->
  _instance s !! K = Some r -> __call__ classes K a s = (Return r, s).
Proof.
  intros Hself Hin. unfold __call__. rewrite Hself.
  unfold bind, gets, ret. simpl.
  rewrite bool_decide_eq_false_2 by (rewrite Hin; discriminate).
  simpl. rewrite Hin. reflexivity.
Qed.

Lemma call_absent (K : class_id) (a : args) (s : state) :
  names_self a = false ->
  _instance s !! K = None ->
  __call__ classes K a s =
    match type__call__ classes K a s with
    | (Return r, s1) => (Return r, set_instance K r s1)
    | (Raise e, s1) => (Raise e, s1)
    end.
Proof.
  intros Hself Hout. unfold __call__. rewrite Hself.
  unfold bind, gets, ret, modify. simpl.
  rewrite bool_decide_eq_true_2 by exact Hout.
  destruct (type__call__ classes K a s) as [[r|e] s1]; simpl; [|reflexivity].
  rewrite lookup_insert_eq. reflexivity.
Qed.

Lemma call_served (K : class_id) (a : args) (s : state) :
  served classes K a s (fst (__call__ classes K a s)) (snd (__call__ classes K a s)).
Proof.
  destruct (names_self a) eqn:Hself.
  { rewrite (call_unbound K a s Hself). simpl. by apply served_unbound. }
  destruct (_instance s !! K) as [r|] eqn:Hreg.
  - rewrite (call_present K a s r Hself Hreg). simpl. by constructor.
  - rewrite (call_absent K a s Hself Hreg), type_call_unfold.
    destruct (cd_init (classes K) a (stdout s)) as [[d|e] out] eqn:Hinit;
      unfold set_instance; simpl.
    + by apply served_built.
    + by apply served_raised.
Qed.

Lemma call_inv (K : class_id) (a : args) (s s' : state) (o : outcome ref) :
  __call__ classes K a s = (o, s') -> served classes K a s o s'.
Proof.
  intros Heq. pose proof (call_served K a s) as Hs.
  rewrite Heq in Hs. exact Hs.
Qed.
End OneRequest.

(** ** What one request does to the state *)

Section Steps.
Variable classes : class_id -> class_def.

Lemma served_mono K a s o s' K' r :
  served classes K a s o s' ->
  _instance s !! K' = Some r -> _instance s' !! K' = Some r.
Proof.
  intros Hs Hin.
  destruct Hs as [Hself|r0 Hself H0|d out Hself Hnone Hinit|e out Hself Hnone Hinit];
    simpl; try done.
  destruct (decide (K = K')) as [->|Hne]; [congruence|].
  by rewrite lookup_insert_ne.
Qed.

Lemma served_return K a s r s' :
  served classes K a s (Return r) s' -> _instance s' !! K = Some r.
Proof.
  inversion 1; subst; simpl; [done|]. apply lookup_insert_eq.
Qed.

Lemma served_raise K a s e s' :
  served classes K a s (Raise e) s' ->
  _instance s' = _instance s /\ heap s' = heap s.
Proof. inversion 1; subst; simpl; done. Qed.

(** A request that got past the binding raises only for a class without
    an entry. *)
Lemma served_raise_bound K a s e s' :
  served classes K a s (Raise e) s' ->
  names_self a = false -> _instance s !! K = None.
Proof. inversion 1; subst; simpl; congruence. Qed.

(** A request that gets past the binding, by a class without an entry,
    returns the new instance when the class hands one over. *)
Lemma served_built_inv K a s o s' d out :
  served classes K a s o s' ->
  names_self a = false ->
  _instance s !! K = None ->
  cd_init (classes K) a (stdout s) = (Return d, out) ->
  o = Return (length (heap s)).
Proof. intros Hs Hself Hnone Hinit. destruct Hs; congruence. Qed.

(** A request that does not get past the binding changes nothing. *)
Lemma served_unbound_inv K a s o s' :
  served classes K a s o s' ->
  names_self a = true -> o = Raise self_bound_twice /\ s' = s.
Proof. intros Hs Hself. destruct Hs; [done|congruence..]. Qed.

(** An entry for another class appears only through a request for it. *)
Lemma served_other K a s o s' K' :
  served classes K a s o s' -> K <> K' ->
  _instance s' !! K' = _instance s !! K'.
Proof.
  intros Hs Hne. destruct Hs; simpl; try done. by rewrite lookup_insert_ne.
Qed.

Lemma served_heap_prefix K a s o s' :
  served classes K a s o s' -> heap s `prefix_of` heap s'.
Proof. destruct 1; simpl; try done. by apply prefix_app_r. Qed.

Lemma invocations_snoc K K' a (l : list (class_id * args)) :
  length (filter (fun c : class_id * args => fst c = K) (l ++ [(K', a)])) =
  length (filter (fun c : class_id * args => fst c = K) l)
    + (if decide (K' = K) then 1 else 0).
Proof.
  rewrite filter_app, length_app. f_equal.
  rewrite filter_cons. simpl. destruct (decide (K' = K)); reflexivity.
Qed.

(** A request leaves the constructor counts of the other classes, and
    of a class already registered, alone. *)
Lemma served_invocations_other K a s o s' K' :
  served classes K a s o s' -> K <> K' ->
  invocations K' s' = invocations K' s.
Proof.
  intros Hs Hne. unfold invocations.
  destruct Hs; simpl; try done;
    rewrite (invocations_snoc K' K a); destruct (decide (K = K')); try done; lia.
Qed.

Lemma served_invocations_absent K a s o s' :
  served classes K a s o s' -> names_self a = false ->
  _instance s !! K = None ->
  invocations K s' = S (invocations K s).
Proof.
  intros Hs Hself Hnone. unfold invocations.
  destruct Hs; simpl; try congruence;
    rewrite (invocations_snoc K K a); destruct (decide (K = K)); try done; lia.
Qed.
End Steps.

(** ** Sequences of requests *)

Section Runs.
Variable classes : class_id -> class_def.

Lemma exec_cons K a reqs s :
  exec classes ((K, a) :: reqs) s =
    (fst (__call__ classes K a s)
       :: fst (exec classes reqs (snd (__call__ classes K a s))),
     snd (exec classes reqs (snd (__call__ classes K a s)))).
Proof.
  simpl. destruct (__call__ classes K a s) as [o s1]. simpl.
  destruct (exec classes reqs s1) as [rs s2]. reflexivity.
Qed.

Lemma exec_app l1 l2 s :
  exec classes (l1 ++ l2) s =
    (fst (exec classes l1 s)
       ++ fst (exec classes l2 (snd (exec classes l1 s))),
     snd (exec classes l2 (snd (exec classes l1 s)))).
Proof.
  revert s. induction l1 as [|[K a] l1 IH]; intros s.
  - simpl. by destruct (exec classes l2 s).
  - rewrite <- app_comm_cons, !exec_cons, IH. reflexivity.
Qed.

Lemma exec_length reqs s : length (fst (exec classes reqs s)) = length reqs.
Proof.
  revert s. induction reqs as [|[K a] reqs IH]; intros s; [done|].
  rewrite exec_cons. simpl. by rewrite IH.
Qed.

(** Request number [i] is served in the state its predecessors left and
    leaves the state its successors start from. *)
Lemma exec_lookup reqs s i K a o :
  reqs !! i = Some (K, a) ->
  fst (exec classes reqs s) !! i = Some o ->
  served classes K a (snd (exec classes (take i reqs) s)) o
                     (snd (exec classes (take (S i) reqs) s)).
Proof.
  revert s i. induction reqs as [|[K0 a0] reqs IH]; intros s i Hreq Hres;
    [done|].
  rewrite exec_cons in Hres. destruct i as [|i]; simpl in Hreq, Hres.
  - injection Hreq as -> ->. injection Hres as <-.
    rewrite firstn_O. change (take 1 ((K, a) :: reqs)) with ([(K, a)] ++ take 0 reqs).
    rewrite firstn_O, app_nil_r, exec_cons. simpl. apply call_served.
  - change (take (S (S i)) ((K0, a0) :: reqs))
      with ((K0, a0) :: take (S i) reqs).
    change (take (S i) ((K0, a0) :: reqs)) with ((K0, a0) :: take i reqs).
    rewrite !exec_cons. simpl. by apply IH.
Qed.

Lemma exec_result_some reqs s i q :
  reqs !! i = Some q -> is_Some (fst (exec classes reqs s) !! i).
Proof.
  intros Hreq. apply lookup_lt_is_Some. rewrite exec_length.
  by eapply lookup_lt_Some.
Qed.

Lemma exec_split i reqs s :
  snd (exec classes reqs s) =
  snd (exec classes (drop i reqs) (snd (exec classes (take i reqs) s))).
Proof. rewrite <- (take_drop i reqs) at 1. by rewrite exec_app. Qed.

Lemma exec_mono reqs s K r :
  _instance s !! K = Some r ->
  _instance (snd (exec classes reqs s)) !! K = Some r.
Proof.
  revert s. induction reqs as [|[K0 a0] reqs IH]; intros s Hin; [done|].
  rewrite exec_cons. simpl. apply IH.
  eapply served_mono; [apply call_served|done].
Qed.

Lemma exec_heap_prefix reqs s :
  heap s `prefix_of` heap (snd (exec classes reqs s)).
Proof.
  revert s. induction reqs as [|[K0 a0] reqs IH]; intros s; [done|].
  rewrite exec_cons. simpl. etrans; [|apply IH].
  eapply served_heap_prefix, call_served.
Qed.

(** Monotonicity between two points of one run. *)
Lemma exec_take_mono reqs s i j K r :
  i <= j ->
  _instance (snd (exec classes (take i reqs) s)) !! K = Some r ->
  _instance (snd (exec classes (take j reqs) s)) !! K = Some r.
Proof.
  intros Hle Hin.
  rewrite (exec_split i (take j reqs) s), take_take.
  replace (i `min` j) with i by lia. by apply exec_mono.
Qed.

(** A reference handed back stays registered under its class. *)
Lemma exec_returned reqs s i K a r :
  reqs !! i = Some (K, a) ->
  fst (exec classes reqs s) !! i = Some (Return r) ->
  _instance (snd (exec classes reqs s)) !! K = Some r.
Proof.
  intros Hreq Hres.
  rewrite (exec_split (S i) reqs s). apply exec_mono.
  eapply served_return, exec_lookup; eauto.
Qed.

Lemma exec_returned_before reqs s i j K a r :
  reqs !! i = Some (K, a) ->
  fst (exec classes reqs s) !! i = Some (Return r) ->
  i < j ->
  _instance (snd (exec classes (take j reqs) s)) !! K = Some r.
Proof.
  intros Hreq Hres Hlt.
  apply (exec_take_mono reqs s (S i) j); [lia|].
  eapply served_return, exec_lookup; eauto.
Qed.

(** An entry is there only if a request for its class returned it, or it
    was there from the start. *)
Lemma exec_registered reqs s K r :
  _instance (snd (exec classes reqs s)) !! K = Some r ->
  _instance s !! K = Some r \/
  exists i a, reqs !! i = Some (K, a) /\
              fst (exec classes reqs s) !! i = Some (Return r).
Proof.
  revert s. induction reqs as [|[K0 a0] reqs IH]; intros s Hin;
    [by left|].
  rewrite exec_cons in Hin |- *. simpl in Hin |- *.
  destruct (IH _ Hin) as [Hmid|(i & a & Hreq & Hres)].
  - pose proof (call_served classes K0 a0 s) as Hs.
    destruct (decide (K0 = K)) as [->|Hne].
    + destruct (_instance s !! K) as [r0|] eqn:Hs0.
      * left. rewrite (served_mono _ _ _ _ _ _ _ _ Hs Hs0) in Hmid. done.
      * right. exists 0, a0. split; [done|]. simpl.
        destruct (fst (__call__ classes K a0 s)) as [r1|e] eqn:Ho.
        -- apply served_return in Hs. congruence.
        -- apply served_raise in Hs as (Heq & _). congruence.
    + left. by rewrite <- (served_other _ _ _ _ _ _ K Hs Hne).
  - right. exists (S i), a. done.
Qed.
End Runs.

(** ** Invariants of the registry *)

Section Invariants.
Variable classes : class_id -> class_def.

Lemma consistent_initial : consistent classes initial.
Proof. intros K r Hin. simpl in Hin. by rewrite lookup_empty in Hin. Qed.

Lemma consistent_served K a s o s' :
  served classes K a s o s' -> consistent classes s -> consistent classes s'.
Proof.
  intros Hs Hc K' r Hin.
  destruct Hs as [Hself|r0 Hself H0|d out Hself Hnone Hinit|e out Hself Hnone Hinit];
    simpl in *.
  - by apply Hc.
  - by apply Hc.
  - destruct (decide (K = K')) as [<-|Hne].
    + rewrite lookup_insert_eq in Hin. injection Hin as <-.
      exists d, a, (stdout s), out. split_and!; [|set_solver|done].
      by apply list_lookup_middle.
    + rewrite lookup_insert_ne in Hin by done.
      destruct (Hc K' r Hin) as (d' & a' & o1 & o2 & Hh & Hel & Hi).
      exists d', a', o1, o2. split_and!; [|set_solver|done].
      by apply lookup_app_l_Some.
  - destruct (Hc K' r Hin) as (d' & a' & o1 & o2 & Hh & Hel & Hi).
    exists d', a', o1, o2. split_and!; [done|set_solver|done].
Qed.

Lemma consistent_exec reqs s :
  consistent classes s -> consistent classes (snd (exec classes reqs s)).
Proof.
  revert s. induction reqs as [|[K a] reqs IH]; intros s Hc; [done|].
  rewrite exec_cons. simpl. apply IH.
  eapply consistent_served; [apply call_served|done].
Qed.

Lemma counted_initial : counted initial.
Proof. intros K. simpl. by rewrite lookup_empty. Qed.

Lemma counted_served K a s o s' :
  served classes K a s o s' -> counted s -> counted s'.
Proof.
  intros Hs Hc K'. specialize (Hc K').
  destruct Hs as [Hself|r0 Hself H0|d out Hself Hnone Hinit|e out Hself Hnone Hinit];
    try done.
  unfold instances in *. simpl in *.
  rewrite filter_app, length_app, filter_cons. simpl.
  destruct (decide (K = K')) as [<-|Hne].
  - rewrite lookup_insert_eq. rewrite Hnone in Hc. rewrite Hc. done.
  - rewrite lookup_insert_ne by done. rewrite Hc. simpl.
    destruct (_instance s !! K'); lia.
Qed.

Lemma counted_exec reqs s : counted s -> counted (snd (exec classes reqs s)).
Proof.
  revert s. induction reqs as [|[K a] reqs IH]; intros s Hc; [done|].
  rewrite exec_cons. simpl. apply IH.
  eapply counted_served; [apply call_served|done].
Qed.

(** Two classes never share an instance. *)
Lemma consistent_injective s K1 K2 r :
  consistent classes s ->
  _instance s !! K1 = Some r -> _instance s !! K2 = Some r -> K1 = K2.
Proof.
  intros Hc H1 H2.
  destruct (Hc K1 r H1) as (d1 & _ & _ & _ & Hh1 & _).
  destruct (Hc K2 r H2) as (d2 & _ & _ & _ & Hh2 & _).
  congruence.
Qed.

(** Once a class is registered its constructor is not run again. *)
Lemma exec_invocations_present reqs s K r :
  _instance s !! K = Some r ->
  invocations K (snd (exec classes reqs s)) = invocations K s.
Proof.
  revert s. induction reqs as [|[K0 a0] reqs IH]; intros s Hin; [done|].
  rewrite exec_cons. simpl.
  pose proof (call_served classes K0 a0 s) as Hs.
  rewrite IH by (eapply served_mono; eauto).
  destruct (decide (K0 = K)) as [->|Hne].
  - inversion Hs; congruence.
  - by eapply served_invocations_other.
Qed.

(** Until then it runs on every request for the class. *)
Lemma exec_invocations_absent reqs s K :
  _instance s !! K = None ->
  invocations K (snd (exec classes reqs s)) =
  invocations K s + attempts K reqs (fst (exec classes reqs s)).
Proof.
  revert s. induction reqs as [|[K0 a0] reqs IH]; intros s Hnone;
    [simpl; lia|].
  rewrite exec_cons.
  destruct (__call__ classes K0 a0 s) as [o s1] eqn:Hcall.
  apply call_inv in Hcall as Hs. simpl.
  destruct (decide (K0 = K)) as [->|Hne].
  - destruct (names_self a0) eqn:Hself.
    { destruct (served_unbound_inv _ _ _ _ _ _ Hs Hself) as [_ ->].
      by apply IH. }
    pose proof (served_invocations_absent _ _ _ _ _ _ Hs Hself Hnone) as Hinv.
    destruct o as [r|e].
    + apply served_return in Hs as Hreg.
      rewrite (exec_invocations_present _ _ _ _ Hreg). lia.
    + apply served_raise in Hs as Hr. destruct Hr as (Heq & _).
      rewrite IH by congruence. lia.
  - rewrite IH by (by rewrite (served_other _ _ _ _ _ _ K Hs Hne)).
    by rewrite (served_invocations_other _ _ _ _ _ _ K Hs Hne).
Qed.
End Invariants.

(** ** The registry operation *)

Section Registry.
Variable classes : class_id -> class_def.

Lemma call_absent_constructed K a s :
  names_self a = false ->
  _instance s !! K = None ->
  constructed (snd (__call__ classes K a s)) = constructed s ++ [(K, a)].
Proof.
  intros Hself Hnone. pose proof (call_served classes K a s) as Hs.
  inversion Hs; subst; simpl; congruence.
Qed.

(** A request for a class that some earlier request got an instance of
    changes nothing: it is answered with that instance, or, with a
    keyword argument named [self], stopped at the binding. *)
Lemma later_request reqs K i j a a' r :
  i < j ->
  reqs !! i = Some (K, a) ->
  results classes reqs !! i = Some (Return r) ->
  reqs !! j = Some (K, a') ->
  results classes reqs !! j
    = Some (if names_self a' then Raise self_bound_twice else Return r) /\
  before classes (S j) reqs = before classes j reqs.
Proof.
  unfold results, before, final. intros Hlt Hi Hri Hj.
  pose proof (exec_returned_before classes reqs initial i j K a r Hi Hri Hlt)
    as Hreg.
  destruct (exec_result_some classes reqs initial j _ Hj) as [o Ho].
  pose proof (exec_lookup classes reqs initial j K a' o Hj Ho) as Hs.
  rewrite Ho.
  inversion Hs as [Hself|r0 Hself H0|d out Hself Hnone|e out Hself Hnone];
    subst; try congruence; rewrite Hself; (split; [|done]); congruence.
Qed.

Lemma before_heap_prefix i reqs :
  heap (before classes i reqs) `prefix_of` heap (final classes reqs).
Proof.
  unfold before, final. rewrite (exec_split classes i reqs initial).
  apply exec_heap_prefix.
Qed.
End Registry.

(** C1, as the code has it. A request with a keyword argument named
    [self] raises [TypeError] when [__call__] binds its parameters, and
    that is all it does. Any other request: by a class that has no entry
    in the registry, it runs the underlying constructor on the arguments
    of the request, files the instance it gets under the class and hands
    it back (and an exception of the constructor goes through); by a
    class that has an entry, it hands the stored instance back, whatever
    the arguments, and does nothing else. *)
Theorem C1_get_or_create (classes : class_id -> class_def)
    (K : class_id) (a : args) (s : state) :
  __call__ classes K a s =
    (if names_self a then (Raise self_bound_twice, s)
     else match _instance s !! K with
          | Some r => (Return r, s)
          | None =>
              match type__call__ classes K a s with
              | (Return r, s1) => (Return r, set_instance K r s1)
              | (Raise e, s1) => (Raise e, s1)
              end
          end)
  /\ constructed (snd (type__call__ classes K a s)) = constructed s ++ [(K, a)]
  /\ match __call__ classes K a s with
     | (Return r, s1) => _instance s1 !! K = Some r
     | (Raise _, s1) => _instance s1 = _instance s
     end.
Proof.
  split_and!.
  - destruct (names_self a) eqn:Hself; [by apply call_unbound|].
    destruct (_instance s !! K) as [r|] eqn:Hreg.
    + by apply call_present.
    + by apply call_absent.
  - rewrite type_call_unfold.
    by destruct (cd_init (classes K) a (stdout s)) as [[d|e] out].
  - destruct (__call__ classes K a s) as [[r|e] s1] eqn:Hcall;
      apply call_inv in Hcall.
    + by eapply served_return.
    + by apply served_raise in Hcall as (? & _).
Qed.

(** C1, as the specification words it, fails: with [NetworkDriver]
    registered, [NetworkDriver(self=1)] is not answered with the stored
    instance; it raises, its arguments not ignored. *)
Lemma C1_keyword_self_is_not_ignored :
  _instance (final program_classes [("NetworkDriver", no_args)])
    !! "NetworkDriver" = Some 0
  /\ __call__ program_classes "NetworkDriver" (Args [] [("self", VInt 1)])
       (final program_classes [("NetworkDriver", no_args)])
     = (Raise self_bound_twice,
        final program_classes [("NetworkDriver", no_args)])
  /\ fst (__call__ program_classes "NetworkDriver"
            (Args [] [("self", VInt 1)])
            (final program_classes [("NetworkDriver", no_args)]))
     <> Return 0.
Proof. split_and!; [reflexivity|reflexivity|discriminate]. Qed.

(** C2, as the code has it. At most one instance of a class is ever
    constructed: the heap keeps every object ever built and never holds
    two of one class. The constructor of a class runs on each request for
    it that gets past the binding of the parameters, up to and including
    the first one that returns, so exactly once when the first request
    returns; every request after that one runs nothing and changes
    nothing, and is answered with the same reference unless a keyword
    argument named [self] stops it at the binding. Constructing
    [NetworkDriver] three times, first without arguments and then with
    any arguments, gives one run of the constructor, and one reference
    three times when the arguments bind. *)
Theorem C2_one_instance_per_class (classes : class_id -> class_def)
    (reqs : list request) (K : class_id) :
  length (instances K (final classes reqs)) <= 1
  /\ (forall i, heap (before classes i reqs) `prefix_of`
                  heap (final classes reqs))
  /\ invocations K (final classes reqs)
     = attempts K reqs (results classes reqs)
  /\ (forall i j a a' r,
        i < j ->
        reqs !! i = Some (K, a) ->
        results classes reqs !! i = Some (Return r) ->
        reqs !! j = Some (K, a') ->
        results classes reqs !! j
          = Some (if names_self a' then Raise self_bound_twice
                  else Return r) /\
        before classes (S j) reqs = before classes j reqs)
  /\ (forall a1 a2,
        let three := [("NetworkDriver", no_args); ("NetworkDriver", a1);
                      ("NetworkDriver", a2)] in
        results program_classes three
          = [Return 0;
             if names_self a1 then Raise self_bound_twice else Return 0;
             if names_self a2 then Raise self_bound_twice else Return 0] /\
        invocations "NetworkDriver" (final program_classes three) = 1).
Proof.
  split_and!.
  - pose proof (counted_exec classes reqs initial counted_initial K) as Hc.
    unfold final. rewrite Hc.
    destruct (_instance (exec classes reqs initial).2 !! K); lia.
  - intros i. apply before_heap_prefix.
  - unfold final, results.
    by rewrite exec_invocations_absent by apply lookup_empty.
  - intros i j a a' r. apply later_request.
  - intros a1 a2 three. unfold three, final, results.
    set (s1 := State {["NetworkDriver" := 0]} [Object "NetworkDriver" []] []
                     [("NetworkDriver", no_args)]).
    assert (__call__ program_classes "NetworkDriver" no_args initial
            = (Return 0, s1)) as H0 by reflexivity.
    assert (forall a, __call__ program_classes "NetworkDriver" a s1
                      = (if names_self a then Raise self_bound_twice
                         else Return 0, s1)) as Hlater.
    { intros a. destruct (names_self a) eqn:Hself;
        [by apply call_unbound|by apply call_present]. }
    rewrite !exec_cons, H0. cbn [fst snd]. rewrite !Hlater.
    cbn [fst snd exec]. split; reflexivity.
Qed.

(** C2, at a concrete run: after [NetworkDriver()] a request with an
    argument is answered from the registry. *)
Lemma C2_one_instance_per_class_witness :
  results program_classes
    [("NetworkDriver", no_args); ("NetworkDriver", Args [VInt 1] [])] !! 1
  = Some (Return 0).
Proof.
  pose (reqs := [("NetworkDriver", no_args);
                 ("NetworkDriver", Args [VInt 1] [])]).
  destruct (C2_one_instance_per_class program_classes reqs "NetworkDriver")
    as (_ & _ & _ & Hlater & _).
  refine (proj1 (Hlater 0 1 no_args (Args [VInt 1] []) 0 _ _ _ _)).
  - lia.
  - reflexivity.
  - reflexivity.
  - reflexivity.
Defined.

(** C2, as the specification words it, fails twice over.
    [NetworkDriver(1)] raises [TypeError] and stores nothing, so the next
    request, the second for the class, runs the constructor again. And
    after [NetworkDriver()] the request [NetworkDriver(self=1)] is not
    answered with the same reference: it raises. *)
Lemma C2_first_call_only_fails :
  results program_classes
    [("NetworkDriver", Args [VInt 1] []); ("NetworkDriver", no_args)]
    = [Raise (TypeError "NetworkDriver() takes no arguments"); Return 0]
  /\ invocations "NetworkDriver"
       (final program_classes
          [("NetworkDriver", Args [VInt 1] []); ("NetworkDriver", no_args)])
     = 2
  /\ ~ first_call_only program_classes
  /\ results program_classes
       [("NetworkDriver", no_args);
        ("NetworkDriver", Args [] [("self", VInt 1)])]
     = [Return 0; Raise self_bound_twice].
Proof.
  split_and!; [reflexivity|reflexivity| |reflexivity]. intros H.
  specialize (H [("NetworkDriver", Args [VInt 1] []); ("NetworkDriver", no_args)]
                "NetworkDriver" 0 1 (Args [VInt 1] []) no_args).
  discriminate H; [lia|reflexivity|reflexivity].
Qed.

(** C3. Two requests by the same class, anywhere in a process and with
    whatever arguments, that hand back a reference hand back the same
    one. *)
Theorem C3_same_class_same_reference (classes : class_id -> class_def)
    (reqs : list request) (K : class_id) (i j : nat) (args1 args2 : args)
    (r1 r2 : ref) :
  reqs !! i = Some (K, args1) ->
  reqs !! j = Some (K, args2) ->
  results classes reqs !! i = Some (Return r1) ->
  results classes reqs !! j = Some (Return r2) ->
  r1 = r2.
Proof.
  unfold results. intros Hi Hj Hri Hrj.
  pose proof (exec_returned classes reqs initial i K args1 r1 Hi Hri) as H1.
  pose proof (exec_returned classes reqs initial j K args2 r2 Hj Hrj) as H2.
  congruence.
Qed.

Lemma C3_same_class_same_reference_witness :
  results program_classes
    [("NetworkDriver", no_args); ("Other", no_args);
     ("NetworkDriver", Args [VStr "eth0"] [("mtu", VInt 1500)])] !! 0
    = Some (Return 0) /\
  results program_classes
    [("NetworkDriver", no_args); ("Other", no_args);
     ("NetworkDriver", Args [VStr "eth0"] [("mtu", VInt 1500)])] !! 2
    = Some (Return 0) /\
  0 = 0.
Proof.
  split_and!; [reflexivity|reflexivity|].
  apply (C3_same_class_same_reference program_classes
           [("NetworkDriver", no_args); ("Other", no_args);
            ("NetworkDriver", Args [VStr "eth0"] [("mtu", VInt 1500)])]
           "NetworkDriver" 0 2 no_args
           (Args [VStr "eth0"] [("mtu", VInt 1500)]) 0 0);
    reflexivity.
Defined.

(** C4. Requests by two different classes never hand back the same
    reference. *)
Theorem C4_distinct_classes_distinct_references
    (classes : class_id -> class_def) (reqs : list request)
    (K1 K2 : class_id) (i j : nat) (args1 args2 : args) (r1 r2 : ref) :
  K1 <> K2 ->
  reqs !! i = Some (K1, args1) ->
  reqs !! j = Some (K2, args2) ->
  results classes reqs !! i = Some (Return r1) ->
  results classes reqs !! j = Some (Return r2) ->
  r1 <> r2.
Proof.
  unfold results. intros Hne Hi Hj Hri Hrj Heq. subst r2.
  pose proof (exec_returned classes reqs initial i K1 args1 r1 Hi Hri) as H1.
  pose proof (exec_returned classes reqs initial j K2 args2 r1 Hj Hrj) as H2.
  apply Hne.
  eapply consistent_injective; [|exact H1|exact H2].
  apply consistent_exec, consistent_initial.
Qed.

Lemma C4_distinct_classes_distinct_references_witness :
  results program_classes
    [("NetworkDriver", no_args); ("Other", no_args);
     ("NetworkDriver", no_args)] !! 2 = Some (Return 0) /\
  results program_classes
    [("NetworkDriver", no_args); ("Other", no_args);
     ("NetworkDriver", no_args)] !! 1 = Some (Return 1) /\
  0 <> 1.
Proof.
  split_and!; [reflexivity|reflexivity|].
  apply (C4_distinct_classes_distinct_references program_classes
           [("NetworkDriver", no_args); ("Other", no_args);
            ("NetworkDriver", no_args)]
           "NetworkDriver" "Other" 2 1 no_args no_args 0 1);
    [discriminate|reflexivity..].
Defined.

(** C5, as the code has it. A request raises in two cases only. With a
    keyword argument named [self] it raises the [TypeError] of
    [__call__]'s own parameter binding, and nothing has run. Otherwise it
    raises exactly when its class has no entry and the underlying
    constructor raises, with the exception and the state the constructor
    left; and the constructor raises exactly when the work of the class on
    these arguments does. Beyond the binding the registry checks nothing
    and raises nothing of its own, the [KeyError] of its subscript
    included. *)
Theorem C5_constructor_error_propagates (classes : class_id -> class_def)
    (K : class_id) (a : args) (s s1 : state) (e : exn) :
  (__call__ classes K a s = (Raise e, s1) <->
   (names_self a = true /\ e = self_bound_twice /\ s1 = s) \/
   (names_self a = false /\ _instance s !! K = None /\
    type__call__ classes K a s = (Raise e, s1)))
  /\
  (type__call__ classes K a s = (Raise e, s1) <->
   exists out,
     cd_init (classes K) a (stdout s) = (Raise e, out) /\
     s1 = State (_instance s) (heap s) out (constructed s ++ [(K, a)])).
Proof.
  split.
  - destruct (names_self a) eqn:Hself.
    { rewrite (call_unbound classes K a s Hself). split.
      - intros [= <- <-]. by left.
      - intros [(_ & -> & ->)|(? & _)]; done. }
    split.
    + intros Hcall. right. split; [done|].
      destruct (_instance s !! K) as [r|] eqn:Hreg.
      * by rewrite (call_present classes K a s r Hself Hreg) in Hcall.
      * split; [done|].
        rewrite (call_absent classes K a s Hself Hreg) in Hcall.
        by destruct (type__call__ classes K a s) as [[r|e'] s2].
    + intros [(? & _)|(_ & Hreg & Hty)]; [done|].
      rewrite (call_absent classes K a s Hself Hreg), Hty. done.
  - rewrite type_call_unfold.
    destruct (cd_init (classes K) a (stdout s)) as [[d|e'] out]; split.
    + discriminate.
    + intros (out' & Hinit & _). discriminate.
    + intros [= -> <-]. by exists out.
    + intros (out' & [= -> ->] & ->). done.
Qed.

Lemma C5_constructor_error_propagates_witness :
  __call__ program_classes "NetworkDriver" (Args [VInt 1] []) initial
  = (Raise (TypeError "NetworkDriver() takes no arguments"),
     State ∅ [] [] [("NetworkDriver", Args [VInt 1] [])]).
Proof.
  apply (proj2 (proj1 (C5_constructor_error_propagates program_classes
                  "NetworkDriver" (Args [VInt 1] []) initial
                  (State ∅ [] [] [("NetworkDriver", Args [VInt 1] [])])
                  (TypeError "NetworkDriver() takes no arguments")))).
  right. split_and!; reflexivity.
Defined.

(** C5, as the specification words it, fails: the first request
    [NetworkDriver(self=1)] raises an error of [Singleton.__call__]
    itself; the constructor has not run, and its own error for these
    arguments is another one. *)
Lemma C5_binding_error_is_not_the_constructor_s :
  __call__ program_classes "NetworkDriver" (Args [] [("self", VInt 1)]) initial
    = (Raise self_bound_twice, initial)
  /\ constructed initial = []
  /\ fst (type__call__ program_classes "NetworkDriver"
            (Args [] [("self", VInt 1)]) initial)
     = Raise (TypeError "NetworkDriver() takes no arguments")
  /\ self_bound_twice <> TypeError "NetworkDriver() takes no arguments".
Proof. split_and!; [reflexivity..|discriminate]. Qed.

(** C6, as the code has it. Once a request by a class has handed back an
    instance, every later request by that class without a keyword
    argument named [self] is answered with it, whatever the arguments and
    whatever the constructor would have made of them: the constructor is
    not run and the state is as it was. *)
Theorem C6_later_calls_never_fail (classes : class_id -> class_def)
    (reqs : list request) (K : class_id) (i j : nat) (a a' : args)
    (r : ref) :
  i < j ->
  reqs !! i = Some (K, a) ->
  results classes reqs !! i = Some (Return r) ->
  reqs !! j = Some (K, a') ->
  names_self a' = false ->
  results classes reqs !! j = Some (Return r)
  /\ constructed (before classes (S j) reqs)
     = constructed (before classes j reqs)
  /\ __call__ classes K a' (before classes j reqs)
     = (Return r, before classes j reqs).
Proof.
  intros Hlt Hi Hri Hj Hself.
  destruct (later_request classes reqs K i j a a' r Hlt Hi Hri Hj)
    as [Hrj Hsame].
  rewrite Hself in Hrj.
  split_and!; [done|by rewrite Hsame|].
  apply call_present; [done|]. unfold before, final.
  exact (exec_returned_before classes reqs initial i j K a r Hi Hri Hlt).
Qed.

(** C6 on arguments the constructor rejects: [NetworkDriver(1)] raises as
    a first request and is served as a second one. *)
Lemma C6_later_calls_never_fail_witness :
  fst (__call__ program_classes "NetworkDriver" (Args [VInt 1] []) initial)
    = Raise (TypeError "NetworkDriver() takes no arguments")
  /\ results program_classes
       [("NetworkDriver", no_args); ("NetworkDriver", Args [VInt 1] [])] !! 1
     = Some (Return 0).
Proof.
  split; [reflexivity|].
  apply (C6_later_calls_never_fail program_classes
           [("NetworkDriver", no_args); ("NetworkDriver", Args [VInt 1] [])]
           "NetworkDriver" 0 1 no_args (Args [VInt 1] []) 0);
    [lia|reflexivity..].
Defined.

(** C6, as the specification words it, fails: after [NetworkDriver()] the
    later request [NetworkDriver(self=1)] raises over its arguments. *)
Lemma C6_later_call_with_keyword_self_fails :
  results program_classes
    [("NetworkDriver", no_args);
     ("NetworkDriver", Args [] [("self", VInt 1)])] !! 0
    = Some (Return 0)
  /\ results program_classes
       [("NetworkDriver", no_args);
        ("NetworkDriver", Args [] [("self", VInt 1)])] !! 1
     = Some (Raise self_bound_twice).
Proof. split; reflexivity. Qed.

(** C7. The registry starts empty and only grows: whatever requests are
    served, from whatever state, every entry stays and keeps its
    instance, and the objects built so far stay as they are. Entries come
    lazily and only from instantiation: a request that gets past the
    binding, by a class without an entry, whose constructor returns an
    instance, is answered with it and leaves it filed under the class;
    and a class has an entry exactly when one of the requests so far was
    by that class and handed the instance back. *)
Theorem C7_registry_grows_monotonically (classes : class_id -> class_def)
    (reqs : list request) :
  _instance initial = ∅
  /\ (forall s : state, _instance s ⊆ _instance (snd (exec classes reqs s)))
  /\ (forall s : state, heap s `prefix_of` heap (snd (exec classes reqs s)))
  /\ (forall (K : class_id) (r : ref),
        _instance (final classes reqs) !! K = Some r <->
        exists i a, reqs !! i = Some (K, a) /\
                    results classes reqs !! i = Some (Return r))
  /\ (forall (K : class_id) (a : args) (s s1 : state) (r : ref),
        names_self a = false ->
        _instance s !! K = None ->
        type__call__ classes K a s = (Return r, s1) ->
        fst (__call__ classes K a s) = Return r /\
        _instance (snd (__call__ classes K a s)) = <[K:=r]> (_instance s))
  /\ (forall (i : nat) (K : class_id) (a : args) (d : attrs)
             (out : list string),
        reqs !! i = Some (K, a) ->
        names_self a = false ->
        _instance (before classes i reqs) !! K = None ->
        cd_init (classes K) a (stdout (before classes i reqs))
          = (Return d, out) ->
        exists r, results classes reqs !! i = Some (Return r) /\
                  _instance (before classes (S i) reqs) !! K = Some r /\
                  _instance (final classes reqs) !! K = Some r).
Proof.
  split_and!.
  - reflexivity.
  - intros s. apply map_subseteq_spec. intros K r. apply exec_mono.
  - intros s. apply exec_heap_prefix.
  - intros K r. unfold final, results. split.
    + intros Hin. apply exec_registered in Hin as [Hin|Hin]; [|done].
      simpl in Hin. by rewrite lookup_empty in Hin.
    + intros (i & a & Hi & Hri). by eapply exec_returned.
  - intros K a s s1 r Hself Hnone Hty.
    assert (_instance s1 = _instance s) as Hsame.
    { pose proof Hty as Hty'. rewrite type_call_unfold in Hty'.
      destruct (cd_init (classes K) a (stdout s)) as [[d|e] out];
        [|discriminate]. by injection Hty' as _ <-. }
    rewrite (call_absent classes K a s Hself Hnone), Hty. simpl.
    by rewrite Hsame.
  - intros i K a d out Hi Hself Hnone Hinit.
    unfold results, before, final in *.
    destruct (exec_result_some classes reqs initial i _ Hi) as [o Ho].
    pose proof (exec_lookup classes reqs initial i K a o Hi Ho) as Hs.
    pose proof (served_built_inv classes K a _ _ _ d out Hs Hself Hnone Hinit)
      as ->.
    exists (length (heap (exec classes (take i reqs) initial).2)).
    split_and!; [done| |].
    + exact (served_return classes K a _ _ _ Hs).
    + exact (exec_returned classes reqs initial i K a _ Hi Ho).
Qed.

(** C7 at a concrete run: the first [NetworkDriver()] creates the entry. *)
Lemma C7_registry_grows_monotonically_witness :
  _instance initial !! "NetworkDriver" = None
  /\ exists r,
       results program_classes [("NetworkDriver", no_args)] !! 0
         = Some (Return r) /\
       _instance (before program_classes 1 [("NetworkDriver", no_args)])
         !! "NetworkDriver" = Some r /\
       _instance (final program_classes [("NetworkDriver", no_args)])
         !! "NetworkDriver" = Some r.
Proof.
  split; [reflexivity|].
  destruct (C7_registry_grows_monotonically program_classes
              [("NetworkDriver", no_args)]) as (_ & _ & _ & _ & _ & Hnew).
  exact (Hnew 0 "NetworkDriver" no_args [] [] eq_refl eq_refl eq_refl eq_refl).
Defined.

(** C9, as the code has it. When the underlying constructor raises on a
    request by a class without an entry, the request raises that
    exception and leaves the registry and the heap as they were: no entry
    for the class. So the next request by the class gets no stored or
    half-built instance: with a keyword argument named [self] it is
    stopped at the binding, and otherwise, whatever its arguments, it
    runs the constructor afresh. *)
Theorem C9_failed_construction_stores_nothing
    (classes : class_id -> class_def) (K : class_id) (a : args)
    (s s1 : state) (e : exn) :
  names_self a = false ->
  _instance s !! K = None ->
  type__call__ classes K a s = (Raise e, s1) ->
  __call__ classes K a s = (Raise e, s1)
  /\ _instance s1 = _instance s
  /\ heap s1 = heap s
  /\ _instance s1 !! K = None
  /\ forall a' : args,
       if names_self a'
       then __call__ classes K a' s1 = (Raise self_bound_twice, s1)
       else constructed (snd (__call__ classes K a' s1))
              = constructed s1 ++ [(K, a')]
            /\ __call__ classes K a' s1
               = match type__call__ classes K a' s1 with
                 | (Return r, s2) => (Return r, set_instance K r s2)
                 | (Raise e', s2) => (Raise e', s2)
                 end.
Proof.
  intros Hself Hnone Hty.
  assert (__call__ classes K a s = (Raise e, s1)) as Hcall
    by (by rewrite (call_absent classes K a s Hself Hnone), Hty).
  destruct (served_raise classes K a s e s1 (call_inv classes K a s s1 _ Hcall))
    as [Hreg Hheap].
  assert (_instance s1 !! K = None) as Hnone1 by congruence.
  split_and!; try done. intros a'.
  destruct (names_self a') eqn:Hself'; [by apply call_unbound|]. split.
  - by apply call_absent_constructed.
  - by apply call_absent.
Qed.

Lemma C9_failed_construction_stores_nothing_witness :
  __call__ program_classes "NetworkDriver" (Args [VInt 1] []) initial
    = (Raise (TypeError "NetworkDriver() takes no arguments"),
       State ∅ [] [] [("NetworkDriver", Args [VInt 1] [])])
  /\ _instance (State ∅ [] [] [("NetworkDriver", Args [VInt 1] [])])
     = _instance initial
  /\ fst (__call__ program_classes "NetworkDriver" no_args
            (State ∅ [] [] [("NetworkDriver", Args [VInt 1] [])]))
     = Return 0
  /\ constructed
       (snd (__call__ program_classes "NetworkDriver" no_args
               (State ∅ [] [] [("NetworkDriver", Args [VInt 1] [])])))
     = [("NetworkDriver", Args [VInt 1] []); ("NetworkDriver", no_args)].
Proof.
  pose proof (C9_failed_construction_stores_nothing program_classes
                "NetworkDriver" (Args [VInt 1] []) initial
                (State ∅ [] [] [("NetworkDriver", Args [VInt 1] [])])
                (TypeError "NetworkDriver() takes no arguments")
                eq_refl eq_refl eq_refl) as (Hcall & Hreg & _ & _ & Hnext).
  split_and!; [exact Hcall|exact Hreg|reflexivity|exact (proj1 (Hnext no_args))].
Defined.

(** C9, as the specification words it, fails: after the failed
    [NetworkDriver(1)] the next request [NetworkDriver(self=1)] does not
    attempt construction; it raises at the binding and the constructor
    log stays as it was. *)
Lemma C9_next_request_may_stop_at_binding :
  __call__ program_classes "NetworkDriver" (Args [VInt 1] []) initial
    = (Raise (TypeError "NetworkDriver() takes no arguments"),
       State ∅ [] [] [("NetworkDriver", Args [VInt 1] [])])
  /\ __call__ program_classes "NetworkDriver" (Args [] [("self", VInt 1)])
       (State ∅ [] [] [("NetworkDriver", Args [VInt 1] [])])
     = (Raise self_bound_twice,
        State ∅ [] [] [("NetworkDriver", Args [VInt 1] [])])
  /\ constructed
       (snd (__call__ program_classes "NetworkDriver"
               (Args [] [("self", VInt 1)])
               (State ∅ [] [] [("NetworkDriver", Args [VInt 1] [])])))
     <> [("NetworkDriver", Args [VInt 1] []);
         ("NetworkDriver", Args [] [("self", VInt 1)])].
Proof. split_and!; [reflexivity|reflexivity|discriminate]. Qed.

(** C10. One dictionary serves every class, keyed by the class; the value
    filed under a class is a finished instance of that very class, with
    the attributes this class gave it on one of its constructions; and
    the reference a request by the class gets is that value. *)
Theorem C10_registry_key_value_consistency
    (classes : class_id -> class_def) (reqs : list request)
    (K : class_id) (r : ref) :
  _instance (final classes reqs) !! K = Some r ->
  (exists (d : attrs) (a : args) (out out' : list string),
      heap (final classes reqs) !! r = Some (Object K d) /\
      (K, a) ∈ constructed (final classes reqs) /\
      cd_init (classes K) a out = (Return d, out'))
  /\ (forall (i : nat) (a : args) (r' : ref),
        reqs !! i = Some (K, a) ->
        results classes reqs !! i = Some (Return r') ->
        r' = r)
  /\ (forall (K' : class_id),
        _instance (final classes reqs) !! K' = Some r -> K' = K).
Proof.
  intros Hin.
  assert (consistent classes (final classes reqs)) as Hc
    by apply consistent_exec, consistent_initial.
  split_and!.
  - by apply Hc.
  - intros i a r' Hi Hri.
    pose proof (exec_returned classes reqs initial i K a r' Hi Hri) as Hin'.
    unfold final in Hin. congruence.
  - intros K' Hin'. by eapply consistent_injective.
Qed.

Lemma C10_registry_key_value_consistency_witness :
  _instance (final program_classes
               [("Other", no_args); ("NetworkDriver", no_args)])
    !! "NetworkDriver" = Some 1
  /\ exists (d : attrs) (a : args) (out out' : list string),
       heap (final program_classes
               [("Other", no_args); ("NetworkDriver", no_args)]) !! 1
         = Some (Object "NetworkDriver" d) /\
       ("NetworkDriver", a)
         ∈ constructed (final program_classes
                          [("Other", no_args); ("NetworkDriver", no_args)]) /\
       object_init "NetworkDriver" a out = (Return d, out').
Proof.
  split; [reflexivity|].
  exact (proj1 (C10_registry_key_value_consistency program_classes
                  [("Other", no_args); ("NetworkDriver", no_args)]
                  "NetworkDriver" 1 eq_refl)).
Defined.

(** The script of naiveSingleton.py builds one [NetworkDriver], logs its
    id three times and reports success. *)
Example main_reports_success :
  main initial =
    (Return tt,
     State {["NetworkDriver" := 0]} [Object "NetworkDriver" []]
       ["NetworkDriver instance id: 0" +:+ newline;
        "NetworkDriver instance id: 0" +:+ newline;
        "NetworkDriver instance id: 0" +:+ newline;
        "All instances are the same. Singleton pattern works!"]
       [("NetworkDriver", no_args)]).
Proof. reflexivity. Qed.

(** ** The factories *)

Import factory_method.

(** The outputs the demonstration of factory_method.py announces. *)
Example fiat_outputs (s : unit) :
  map (fun c => fst (Fiat_create_country tt c s)) ["USA"; "Spain"; "Japan"; "France"]
  = [Return "USD"; Return "EUR"; Return "JPY"; Return "Unknown Country"].
Proof. reflexivity. Qed.

Example virtual_outputs (s : unit) :
  map (fun c => fst (Virtual_create_country tt c s)) ["USA"; "Spain"; "Japan"; "France"]
  = [Return "Bitcoin"; Return "Ethereum"; Return "Dogecoin";
     Return "Unknown Country"].
Proof. reflexivity. Qed.

(** C8. Each factory method computes a function of the label alone: there
    are two functions on strings such that, in every process state and
    for every receiver, the method returns the value of its function at
    the label, raises nothing and leaves the state as it found it; so
    requests served in any order and number each get the answer they
    would get alone. *)
Theorem C8_factories_are_pure :
  exists fiat virtual : string -> string,
    forall (S factory : Type),
      (forall (self : factory) (country : string) (s : S),
          Fiat_create_country self country s = (Return (fiat country), s))
      /\ (forall (self : factory) (country : string) (s : S),
          Virtual_create_country self country s
            = (Return (virtual country), s))
      /\ (forall (qs : list (@request factory)) (s : S),
          serve_all qs s =
            (Return (map (fun q => match q with
                                   | AskFiat _ c => fiat c
                                   | AskVirtual _ c => virtual c
                                   end) qs), s)).
Proof.
  exists (fun c => if String.eqb c "USA" then "USD"
                   else if String.eqb c "Spain" then "EUR"
                   else if String.eqb c "Japan" then "JPY"
                   else "Unknown Country"),
         (fun c => if String.eqb c "USA" then "Bitcoin"
                   else if String.eqb c "Spain" then "Ethereum"
                   else if String.eqb c "Japan" then "Dogecoin"
                   else "Unknown Country").
  intros S factory.
  assert (forall (self : factory) (country : string) (s : S),
             Fiat_create_country self country s
             = (Return (if String.eqb country "USA" then "USD"
                        else if String.eqb country "Spain" then "EUR"
                        else if String.eqb country "Japan" then "JPY"
                        else "Unknown Country"), s)) as Hfiat.
  { intros self c s. unfold Fiat_create_country.
    destruct (String.eqb c "USA"); [done|].
    destruct (String.eqb c "Spain"); [done|].
    by destruct (String.eqb c "Japan"). }
  assert (forall (self : factory) (country : string) (s : S),
             Virtual_create_country self country s
             = (Return (if String.eqb country "USA" then "Bitcoin"
                        else if String.eqb country "Spain" then "Ethereum"
                        else if String.eqb country "Japan" then "Dogecoin"
                        else "Unknown Country"), s)) as Hvirtual.
  { intros self c s. unfold Virtual_create_country.
    destruct (String.eqb c "USA"); [done|].
    destruct (String.eqb c "Spain"); [done|].
    by destruct (String.eqb c "Japan"). }
  split_and!; [exact Hfiat|exact Hvirtual|].
  induction qs as [|q qs IH]; intros s; [done|].
  simpl. unfold bind at 1.
  destruct q as [self c|self c]; simpl.
  - rewrite Hfiat. unfold bind at 1. by rewrite IH.
  - rewrite Hvirtual. unfold bind at 1. by rewrite IH.
Qed.

(** * Further properties of naiveSingleton.py *)

(** ** [NetworkDriver.log] and [create_singleton] *)

Lemma log_unfold (r : ref) (s : state) :
  NetworkDriver_log r s = (Return tt, set_stdout (stdout s ++ [log_line r]) s).
Proof. reflexivity. Qed.

Lemma append_char_inj (c : Ascii.ascii) (x y : string) :
  x +:+ String c EmptyString = y +:+ String c EmptyString -> x = y.
Proof.
  revert y. induction x as [|a x IH]; intros [|b y] Heq; simpl in Heq.
  - reflexivity.
  - injection Heq as _ Heq. by destruct y.
  - injection Heq as _ Heq. by destruct x.
  - injection Heq as -> Heq. f_equal. by apply IH.
Qed.

Lemma log_line_inj (r1 r2 : ref) : log_line r1 = log_line r2 -> r1 = r2.
Proof.
  unfold log_line, newline. intros Heq.
  apply (inj (String.app _)) in Heq.
  apply append_char_inj in Heq. by apply (inj pretty) in Heq.
Qed.

(** X1. What [log] prints tells instances apart: from one and the same
    state, logging two references leaves the same output exactly when the
    references are the same. *)
Theorem log_tells_instances_apart (r1 r2 : ref) (s : state) :
  stdout (snd (NetworkDriver_log r1 s)) = stdout (snd (NetworkDriver_log r2 s))
  <-> r1 = r2.
Proof.
  rewrite !log_unfold. simpl. split; [|by intros ->].
  intros Heq. apply app_inv_head in Heq.
  apply (f_equal head) in Heq. apply (inj Some) in Heq.
  by apply log_line_inj.
Qed.

Lemma create_singleton_present (s : state) (r : ref) :
  _instance s !! "NetworkDriver" = Some r ->
  create_singleton s = (Return r, set_stdout (stdout s ++ [log_line r]) s).
Proof.
  intros Hin. unfold create_singleton, bind.
  by rewrite (call_present program_classes "NetworkDriver" no_args s r
                eq_refl Hin).
Qed.

Lemma create_singleton_absent (s : state) :
  _instance s !! "NetworkDriver" = None ->
  create_singleton s =
    (Return (length (heap s)),
     State (<["NetworkDriver" := length (heap s)]> (_instance s))
           (heap s ++ [Object "NetworkDriver" []])
           (stdout s ++ [log_line (length (heap s))])
           (constructed s ++ [("NetworkDriver", no_args)])).
Proof.
  intros Hnone. unfold create_singleton, bind.
  by rewrite (call_absent program_classes "NetworkDriver" no_args s
                eq_refl Hnone), type_call_unfold.
Qed.

(** X2. [create_singleton] never raises, in whatever state it is called:
    it returns the reference the registry holds for [NetworkDriver]
    afterwards and prints one line, the one for that reference. With an
    entry already there it does nothing else; without one it builds the
    instance, attribute-free, by one run of the constructor without
    arguments. *)
Theorem create_singleton_never_raises (s : state) :
  exists (r : ref) (s' : state),
    create_singleton s = (Return r, s')
    /\ _instance s' !! "NetworkDriver" = Some r
    /\ stdout s' = stdout s ++ [log_line r]
    /\ match _instance s !! "NetworkDriver" with
       | Some r0 => r = r0 /\ s' = set_stdout (stdout s ++ [log_line r0]) s
       | None =>
           r = length (heap s)
           /\ heap s' = heap s ++ [Object "NetworkDriver" []]
           /\ constructed s' = constructed s ++ [("NetworkDriver", no_args)]
       end.
Proof.
  destruct (_instance s !! "NetworkDriver") as [r0|] eqn:Hreg.
  - exists r0, (set_stdout (stdout s ++ [log_line r0]) s).
    split_and!; try done. by apply create_singleton_present.
  - eexists _, _. split; [by apply create_singleton_absent|].
    simpl. split_and!; try done. apply lookup_insert_eq.
Qed.

(** X3. Once [create_singleton] has returned a reference, it returns the
    same one ever after, whatever construction requests are served in
    between, and then only prints its line: no constructor runs and the
    registry and the heap stay as they are. *)
Theorem create_singleton_again (s s1 : state) (r : ref)
    (reqs : list naiveSingleton.request) :
  create_singleton s = (Return r, s1) ->
  create_singleton (snd (exec program_classes reqs s1)) =
    (Return r,
     set_stdout (stdout (snd (exec program_classes reqs s1)) ++ [log_line r])
                (snd (exec program_classes reqs s1))).
Proof.
  intros Hfirst. apply create_singleton_present, exec_mono.
  destruct (_instance s !! "NetworkDriver") as [r0|] eqn:Hreg.
  - rewrite (create_singleton_present s r0 Hreg) in Hfirst.
    injection Hfirst as <- <-. exact Hreg.
  - rewrite (create_singleton_absent s Hreg) in Hfirst.
    injection Hfirst as <- <-. apply lookup_insert_eq.
Qed.

Lemma create_singleton_again_witness :
  create_singleton
    (snd (exec program_classes [("Other", no_args)]
            (snd (create_singleton initial))))
  = (Return 0,
     State {["NetworkDriver" := 0; "Other" := 1]}
           [Object "NetworkDriver" []; Object "Other" []]
           [log_line 0; log_line 0]
           [("NetworkDriver", no_args); ("Other", no_args)]).
Proof.
  exact (create_singleton_again initial (snd (create_singleton initial)) 0
           [("Other", no_args)] eq_refl).
Defined.

Lemma create_singleton_step (s : state) :
  exists (r : ref) (s' : state),
    create_singleton s = (Return r, s')
    /\ _instance s' !! "NetworkDriver" = Some r
    /\ stdout s' = stdout s ++ [log_line r]
    /\ invocations "NetworkDriver" s' <= S (invocations "NetworkDriver" s)
    /\ (forall r0, _instance s !! "NetworkDriver" = Some r0 ->
          r = r0 /\
          invocations "NetworkDriver" s' = invocations "NetworkDriver" s).
Proof.
  destruct (_instance s !! "NetworkDriver") as [r0|] eqn:Hreg.
  - exists r0, (set_stdout (stdout s ++ [log_line r0]) s).
    split_and!; try done.
    + by apply create_singleton_present.
    + apply Nat.le_succ_diag_r.
    + by intros r1 [= ->].
  - eexists _, _. split; [by apply create_singleton_absent|].
    split_and!; try done.
    + apply lookup_insert_eq.
    + unfold invocations. cbn [constructed].
      rewrite (invocations_snoc "NetworkDriver" "NetworkDriver").
      rewrite decide_True by done. lia.
Qed.

(** X4. The script body never raises and always reports success, in
    whatever state it starts: it prints the line of one and the same
    reference three times and then the success message, never the
    failure message; and it runs the constructor at most once. *)
Theorem main_always_reports_success (s : state) :
  exists (r : ref) (s' : state),
    main s = (Return tt, s')
    /\ stdout s' =
         stdout s ++ [log_line r; log_line r; log_line r;
                      "All instances are the same. Singleton pattern works!"]
    /\ _instance s' !! "NetworkDriver" = Some r
    /\ ("Instances are different. Singleton pattern failed."
          ∉ drop (length (stdout s)) (stdout s'))
    /\ invocations "NetworkDriver" s' <= S (invocations "NetworkDriver" s).
Proof.
  destruct (create_singleton_step s)
    as (r & s1 & H1 & Hreg1 & Hout1 & Hinv1 & _).
  destruct (create_singleton_step s1)
    as (r2 & s2 & H2 & Hreg2 & Hout2 & _ & Hsame2).
  destruct (Hsame2 r Hreg1) as [-> Hinv2].
  destruct (create_singleton_step s2)
    as (r3 & s3 & H3 & Hreg3 & Hout3 & _ & Hsame3).
  destruct (Hsame3 r Hreg2) as [-> Hinv3].
  assert (stdout s3 = stdout s ++ [log_line r; log_line r; log_line r])
    as Hout.
  { rewrite Hout3, Hout2, Hout1, <- !app_assoc. done. }
  exists r, (set_stdout
               (stdout s3 ++
                  ["All instances are the same. Singleton pattern works!"]) s3).
  split_and!.
  - unfold main. unfold bind at 1. rewrite H1.
    unfold bind at 1. rewrite H2. unfold bind at 1. rewrite H3.
    rewrite !bool_decide_eq_true_2 by done. reflexivity.
  - cbn [stdout set_stdout]. rewrite Hout, <- app_assoc. done.
  - exact Hreg3.
  - cbn [stdout set_stdout]. rewrite Hout, <- app_assoc, drop_app_length.
    unfold log_line. intros Hin.
    repeat (apply elem_of_cons in Hin as [Hin|Hin]; [discriminate Hin|]).
    by apply elem_of_nil in Hin.
  - change (invocations "NetworkDriver" s3 <= S (invocations "NetworkDriver" s)).
    lia.
Qed.

(** ** Requests for the classes of the program *)

Lemma object_init_cases (K : class_id) (a : args) (out : list string) :
  (a = no_args /\ object_init K a out = (Return [], out)) \/
  (a <> no_args /\
   object_init K a out
     = (Raise (TypeError (K +:+ "() takes no arguments")), out)).
Proof.
  destruct a as [[|p ps] [|k ks]]; [left|right..]; by split.
Qed.

(** A request of the program is answered when it gets past the binding
    and the class is registered or the request brings no argument, and
    not otherwise. *)
Lemma program_call_returns (K : class_id) (a : args) (s : state) :
  (exists r, fst (__call__ program_classes K a s) = Return r) <->
  names_self a = false /\ (is_Some (_instance s !! K) \/ a = no_args).
Proof.
  pose proof (call_served program_classes K a s) as Hs.
  destruct Hs as [Hself|r Hself Hreg|d out Hself Hnone Hinit|e out Hself Hnone Hinit].
  - split; [by intros [? ?]|]. intros [? _]. congruence.
  - split; [|by intros; eexists]. intros _. split; [done|]. by left; eexists.
  - split; [|by intros; eexists]. intros _. split; [done|]. right.
    simpl in Hinit.
    destruct (object_init_cases K a (stdout s)) as [[Ha _]|[_ Hraise]];
      [exact Ha|congruence].
  - split; [by intros [? ?]|]. intros [_ [[r Hr]| ->]]; [congruence|].
    simpl in Hinit. discriminate Hinit.
Qed.

Lemma program_call_registers (K0 K : class_id) (a0 : args) (s : state) :
  is_Some (_instance (snd (__call__ program_classes K0 a0 s)) !! K) <->
  (is_Some (_instance s !! K) \/ (K0 = K /\ a0 = no_args)).
Proof.
  pose proof (call_served program_classes K0 a0 s) as Hs.
  destruct (decide (K0 = K)) as [ ->|Hne].
  - pose proof (program_call_returns K a0 s) as Hret.
    destruct (fst (__call__ program_classes K a0 s)) as [r|e] eqn:Ho.
    + apply served_return in Hs. split; [|by intros; eexists].
      intros _. destruct (proj1 Hret) as [_ [?|?]];
        [by eexists|by left|by right].
    + apply served_raise in Hs as (Heq & _). rewrite Heq.
      split; [by left|]. intros [?|[_ ->]]; [done|].
      destruct (proj2 Hret) as [? ?]; [by split; [|right]|done].
  - rewrite (served_other _ _ _ _ _ _ K Hs Hne). split; [by left|].
    by intros [?|[? _]].
Qed.

Lemma program_exec_returns (reqs : list naiveSingleton.request) (s : state)
    (j : nat) (K : class_id) (a : args) :
  reqs !! j = Some (K, a) ->
  (exists r, fst (exec program_classes reqs s) !! j = Some (Return r)) <->
  names_self a = false /\
  (is_Some (_instance s !! K) \/ a = no_args \/
   exists i, i < j /\ reqs !! i = Some (K, no_args)).
Proof.
  revert s j. induction reqs as [|[K0 a0] reqs IH]; intros s j Hj; [done|].
  rewrite exec_cons. destruct j as [|j]; simpl in Hj |- *.
  - injection Hj as -> ->.
    pose proof (program_call_returns K a s) as Hret. split.
    + intros [r [= Hr]].
      destruct (proj1 Hret) as [Hself [Hreg|Ha]]; [by exists r| |];
        (split; [done|]); [by left|right; by left].
    + intros [Hself [Hreg|[Ha|(i & Hlt & _)]]]; [| |lia].
      * destruct (proj2 Hret) as [r Hr]; [by split; [|left]|].
        exists r. by rewrite Hr.
      * destruct (proj2 Hret) as [r Hr]; [by split; [|right]|].
        exists r. by rewrite Hr.
  - rewrite (IH _ j Hj), program_call_registers. split.
    + intros [Hself [[Hreg|[ -> ->]]|[ ->|(i & Hlt & Hi)]]]; (split; [done|]).
      * by left.
      * right; right. exists 0. split; [lia|done].
      * right; by left.
      * right; right. exists (S i). split; [lia|done].
    + intros [Hself [Hreg|[ ->|(i & Hlt & Hi)]]]; (split; [done|]).
      * left; by left.
      * right; by left.
      * destruct i as [|i]; simpl in Hi.
        -- injection Hi as -> ->. left; by right.
        -- right; right. exists i. split; [lia|done].
Qed.

(** X5. In the program as it is, a construction request is answered
    exactly when it has no keyword argument named [self] and it brings no
    argument at all or an argument-free request by the same class came
    before it: arguments are accepted, and dropped, only after a bare
    construction, and a keyword [self] never is. *)
Theorem arguments_pass_only_after_bare_construction
    (reqs : list naiveSingleton.request) (j : nat) (K : class_id) (a : args) :
  reqs !! j = Some (K, a) ->
  (exists r, results program_classes reqs !! j = Some (Return r)) <->
  names_self a = false /\
  (a = no_args \/ exists i, i < j /\ reqs !! i = Some (K, no_args)).
Proof.
  intros Hj. unfold results. rewrite (program_exec_returns reqs initial j K a Hj).
  split.
  - intros [Hself [[r Hr]|H]]; [|done].
    simpl in Hr. by rewrite lookup_empty in Hr.
  - intros [Hself H]. split; [done|by right].
Qed.

Lemma arguments_pass_only_after_bare_construction_witness :
  exists r,
    results program_classes
      [("NetworkDriver", Args [VInt 1] []); ("NetworkDriver", no_args);
       ("NetworkDriver", Args [VInt 2] [])] !! 2 = Some (Return r).
Proof.
  apply (proj2 (arguments_pass_only_after_bare_construction
                  [("NetworkDriver", Args [VInt 1] []);
                   ("NetworkDriver", no_args);
                   ("NetworkDriver", Args [VInt 2] [])]
                  2 "NetworkDriver" (Args [VInt 2] []) eq_refl)).
  split; [reflexivity|]. right. exists 1. split; [lia|reflexivity].
Defined.

(** X6. In the program as it is, a construction request can end in two
    exceptions only, both [TypeError]: the one of [__call__]'s parameter
    binding, for a request with a keyword argument named [self]; and the
    one of a class that takes no arguments, for a request that gets past
    the binding with arguments before any argument-free request by its
    class. The registry's own subscript never raises. *)
Theorem requests_raise_only_type_errors
    (reqs : list naiveSingleton.request) (j : nat) (e : exn) :
  results program_classes reqs !! j = Some (Raise e) ->
  exists (K : class_id) (a : args),
    reqs !! j = Some (K, a)
    /\ ((names_self a = true /\ e = self_bound_twice)
        \/ (names_self a = false
            /\ a <> no_args
            /\ e = TypeError (K +:+ "() takes no arguments")
            /\ forall i, i < j -> reqs !! i <> Some (K, no_args))).
Proof.
  unfold results. intros Hres.
  assert (is_Some (reqs !! j)) as [[K a] Hj].
  { apply lookup_lt_is_Some. rewrite <- (exec_length program_classes reqs initial).
    by eapply lookup_lt_Some. }
  exists K, a. split; [done|].
  pose proof (exec_lookup program_classes reqs initial j K a _ Hj Hres) as Hs.
  destruct (names_self a) eqn:Hself.
  { left. split; [done|].
    destruct (served_unbound_inv _ _ _ _ _ _ Hs Hself) as [[= ->] _]. done. }
  right. split; [done|].
  pose proof (program_exec_returns reqs initial j K a Hj) as Hpass.
  rewrite Hres in Hpass.
  assert (~ (a = no_args \/ exists i, i < j /\ reqs !! i = Some (K, no_args)))
    as Hnot.
  { intros H. destruct (proj2 Hpass) as [r Hr]; [by split; [|right]|].
    discriminate Hr. }
  split_and!; [by intros ->; apply Hnot; left| |].
  - inversion Hs as [| | |e' out Hself' Hnone Hinit]; subst; [congruence|].
    simpl in Hinit.
    destruct (object_init_cases K a
                (stdout (exec program_classes (take j reqs) initial).2))
      as [[-> _]|[_ Hraise]]; [by destruct Hnot; left|congruence].
  - intros i Hlt Hi. apply Hnot. right. by exists i.
Qed.

Lemma requests_raise_only_type_errors_witness :
  exists (K : class_id) (a : args),
    [("Other", no_args); ("NetworkDriver", Args [VStr "eth0"] [])] !! 1
      = Some (K, a)
    /\ ((names_self a = true
         /\ TypeError "NetworkDriver() takes no arguments" = self_bound_twice)
        \/ (names_self a = false
            /\ a <> no_args
            /\ TypeError "NetworkDriver() takes no arguments"
               = TypeError (K +:+ "() takes no arguments")
            /\ forall i, i < 1 ->
                 [("Other", no_args);
                  ("NetworkDriver", Args [VStr "eth0"] [])] !! i
                   <> Some (K, no_args))).
Proof.
  exact (requests_raise_only_type_errors
           [("Other", no_args); ("NetworkDriver", Args [VStr "eth0"] [])]
           1 (TypeError "NetworkDriver() takes no arguments") eq_refl).
Defined.

Lemma attempts_le_requests (K : class_id)
    (reqs : list naiveSingleton.request) (rs : list (outcome ref)) :
  attempts K reqs rs <= requests_for K reqs.
Proof.
  unfold requests_for. revert rs.
  induction reqs as [|[K0 a0] reqs IH]; intros [|r rs]; simpl; try lia.
  rewrite filter_cons. simpl. specialize (IH rs).
  destruct (decide (K0 = K)); [|exact IH]. cbn [length].
  destruct (names_self a0); [by apply Nat.le_le_succ_r|].
  destruct r.
  - apply le_n_S, Nat.le_0_l.
  - apply le_n_S, IH.
Qed.

(** X7. A constructor runs only on requests by its own class, at most
    once per such request, so never for a class nobody asked for; and a
    class that has an entry has had its constructor run. *)
Theorem constructor_runs_only_on_request (classes : class_id -> class_def)
    (reqs : list naiveSingleton.request) (K : class_id) :
  invocations K (final classes reqs) <= requests_for K reqs
  /\ match _instance (final classes reqs) !! K with
     | Some _ => 1 <= invocations K (final classes reqs)
     | None => True
     end.
Proof.
  split.
  - unfold final. rewrite exec_invocations_absent by apply lookup_empty.
    simpl. apply attempts_le_requests.
  - destruct (_instance (final classes reqs) !! K) as [r|] eqn:Hreg; [|done].
    destruct (consistent_exec classes reqs initial (consistent_initial classes)
                K r Hreg) as (d & a & _ & _ & _ & Hin & _).
    unfold invocations.
    assert ((K, a) ∈ filter (fun c : class_id * args => fst c = K)
                        (constructed (final classes reqs))) as Hf
      by (by apply list_elem_of_filter).
    destruct (filter _ _); [by apply elem_of_nil in Hf|simpl; lia].
Qed.

(** X11. In the program as it is, serving construction requests prints
    nothing and gives instances no attributes: whatever the requests and
    the state they start from, the output stream is left as it was, and
    every object added to the heap is attribute-free. *)
Theorem requests_print_nothing (reqs : list naiveSingleton.request)
    (s : state) :
  stdout (snd (exec program_classes reqs s)) = stdout s
  /\ forall (r : ref) (o : object),
       heap (snd (exec program_classes reqs s)) !! r = Some o ->
       length (heap s) <= r ->
       ob_dict o = [].
Proof.
  revert s. induction reqs as [|[K a] reqs IH]; intros s.
  - split; [done|]. intros r o Hr Hle. apply lookup_lt_Some in Hr. simpl in Hr. lia.
  - rewrite exec_cons. cbn [snd].
    pose proof (call_served program_classes K a s) as Hs.
    destruct (IH (snd (__call__ program_classes K a s))) as [Hout Hheap].
    destruct Hs as [Hself|r0 Hself Hreg|d out Hself Hnone Hinit|e out Hself Hnone Hinit];
      cbn [stdout heap] in *.
    + done.
    + done.
    + simpl in Hinit.
      destruct (object_init_cases K a (stdout s)) as [[_ Hok]|[_ Hraise]];
        [|congruence].
      rewrite Hok in Hinit. injection Hinit as <- <-.
      split; [done|]. intros r o Hr Hle.
      destruct (decide (r = length (heap s))) as [->|Hne].
      * pose proof (exec_heap_prefix program_classes reqs
                      (State (<[K:=length (heap s)]> (_instance s))
                             (heap s ++ [Object K []]) (stdout s)
                             (constructed s ++ [(K, a)]))) as Hpre.
        cbn [heap] in Hpre.
        eapply prefix_lookup_Some in Hpre;
          [|by apply (list_lookup_middle (heap s) [] (Object K []))].
        pose proof (eq_trans (eq_sym Hr) Hpre) as Ho. by injection Ho as ->.
      * apply (Hheap r o Hr). rewrite length_app. simpl. lia.
    + simpl in Hinit.
      destruct (object_init_cases K a (stdout s)) as [[_ Hok]|[_ Hraise]];
        [congruence|].
      rewrite Hraise in Hinit. injection Hinit as _ <-. done.
Qed.

(** * Further properties of factory_method.py *)

Section FactoryAnswers.
Context {S factory : Type}.

Ltac by_label c :=
  destruct (String.eqb_spec c "USA") as [->|?];
  [|destruct (String.eqb_spec c "Spain") as [->|?];
    [|destruct (String.eqb_spec c "Japan") as [->|?]]];
  simpl.

(** X8. The fiat answer identifies the country: each currency code is
    given for exactly one spelling, byte for byte, and every other string
    gets "Unknown Country". *)
Theorem fiat_answer_identifies_country (self : factory) (country : string)
    (s : S) :
  (fst (Fiat_create_country self country s) = Return "USD"
     <-> country = "USA")
  /\ (fst (Fiat_create_country self country s) = Return "EUR"
     <-> country = "Spain")
  /\ (fst (Fiat_create_country self country s) = Return "JPY"
     <-> country = "Japan")
  /\ (fst (Fiat_create_country self country s) = Return "Unknown Country"
     <-> country <> "USA" /\ country <> "Spain" /\ country <> "Japan").
Proof.
  unfold Fiat_create_country. by_label country; split_and!; split;
    intros; try discriminate; try done; intuition congruence.
Qed.

(** X9. The virtual answer identifies the country in the same way. *)
Theorem virtual_answer_identifies_country (self : factory)
    (country : string) (s : S) :
  (fst (Virtual_create_country self country s) = Return "Bitcoin"
     <-> country = "USA")
  /\ (fst (Virtual_create_country self country s) = Return "Ethereum"
     <-> country = "Spain")
  /\ (fst (Virtual_create_country self country s) = Return "Dogecoin"
     <-> country = "Japan")
  /\ (fst (Virtual_create_country self country s) = Return "Unknown Country"
     <-> country <> "USA" /\ country <> "Spain" /\ country <> "Japan").
Proof.
  unfold Virtual_create_country. by_label country; split_and!; split;
    intros; try discriminate; try done; intuition congruence.
Qed.

(** X10. The two factories know the same countries and tell them apart
    alike: one says "Unknown Country" exactly when the other does, that
    is the only answer they ever share, and two labels get the same fiat
    answer exactly when they get the same virtual answer. *)
Theorem factories_know_the_same_countries (self1 self2 : factory)
    (c1 c2 : string) (s1 s2 : S) :
  (fst (Fiat_create_country self1 c1 s1) = Return "Unknown Country"
     <-> fst (Virtual_create_country self2 c1 s2) = Return "Unknown Country")
  /\ (fst (Fiat_create_country self1 c1 s1)
        = fst (Virtual_create_country self2 c1 s2)
      <-> fst (Fiat_create_country self1 c1 s1) = Return "Unknown Country")
  /\ (fst (Fiat_create_country self1 c1 s1)
        = fst (Fiat_create_country self2 c2 s2)
      <-> fst (Virtual_create_country self1 c1 s1)
            = fst (Virtual_create_country self2 c2 s2)).
Proof.
  unfold Fiat_create_country, Virtual_create_country.
  by_label c1; by_label c2; split_and!; split; intros;
    try discriminate; done.
Qed.
End FactoryAnswers.
